(** * Wallet by BudgetBakers MCP server: the request gateway and its tools

    A shallow embedding of [server.py]: the session context built by
    [app_lifespan], the request gateway [_fetch] and the ten tool
    handlers that delegate to it, together with the parts of the
    libraries the gateway calls ([json.dumps], the [httpx] response
    object).

    Python strings are sequences of Unicode code points; a dictionary
    used as a mapping with unique keys is a finite map; the network is
    an explicit log of the GET requests issued plus a function giving
    the answer of the upstream to each request. *)

From Stdlib Require Import ZArith NArith List Ascii String DecimalString QArith.
From stdpp Require Import gmap list fin_maps.
Import ListNotations.

Local Open Scope Z_scope.

(** ** Python strings *)

(** A [str] is a sequence of code points. *)
Abbreviation pystr := (list N).

(** An ASCII literal of the source, as a [str]. *)
Definition lit (s : string) : pystr :=
  List.map N_of_ascii (list_ascii_of_string s).
Arguments lit _%_string.

Definition quote : N := 34%N.
Definition backslash : N := 92%N.
Definition newline : N := 10%N.
Definition space : N := 32%N.

(** [str(n)] for an [int]: the decimal numeral, with a minus sign for
    negative numbers. *)
Definition int_str (z : Z) : pystr := lit (NilZero.string_of_int (Z.to_int z)).

(** [sep.join(parts)]. *)
Fixpoint join (sep : pystr) (parts : list pystr) : pystr :=
  match parts with
  | [] => []
  | [p] => p
  | p :: rest => p ++ sep ++ join sep rest
  end.

(** [s.lower()] on the ASCII letters, as used for header names. *)
Definition lower_char (c : N) : N :=
  if ((65 <=? c) && (c <=? 90))%N then (c + 32)%N else c.
Definition lower (s : pystr) : pystr := List.map lower_char s.

(** ** Python values that reach [json.dumps] *)

(** [PFloat] carries the [repr] of the float, [PObj] the [str()] of an
    object that is not JSON-native (a date, say).  A [dict] keeps its
    insertion order, which is the order [json.dumps] writes it in; its
    keys are strings. *)
Unset Elimination Schemes.
Inductive pyobj : Type :=
| PNone
| PBool (b : bool)
| PInt (z : Z)
| PFloat (repr : pystr)
| PStr (s : pystr)
| PList (items : list pyobj)
| PDict (items : list (pystr * pyobj))
| PObj (str_form : pystr).
Set Elimination Schemes.

(** Induction on a value, with the hypothesis for every element of a
    list and every value of a dictionary. *)
Section pyobj_induction.
Variable P : pyobj -> Prop.
Hypothesis HNone : P PNone.
Hypothesis HBool : forall b, P (PBool b).
Hypothesis HInt : forall z, P (PInt z).
Hypothesis HFloat : forall r, P (PFloat r).
Hypothesis HStr : forall s, P (PStr s).
Hypothesis HList : forall lst, Forall P lst -> P (PList lst).
Hypothesis HDict : forall dct, Forall (fun kv => P kv.2) dct -> P (PDict dct).
Hypothesis HObj : forall s, P (PObj s).

Fixpoint pyobj_ind (o : pyobj) : P o :=
  match o with
  | PNone => HNone
  | PBool b => HBool b
  | PInt z => HInt z
  | PFloat r => HFloat r
  | PStr s => HStr s
  | PList lst =>
      HList lst
        ((fix all (l : list pyobj) : Forall P l :=
            match l with
            | [] => List.Forall_nil P
            | v :: rest => @List.Forall_cons _ P v rest (pyobj_ind v) (all rest)
            end) lst)
  | PDict dct =>
      HDict dct
        ((fix all (l : list (pystr * pyobj)) : Forall (fun kv => P kv.2) l :=
            match l with
            | [] => List.Forall_nil _
            | (k, v) :: rest =>
                @List.Forall_cons _ (fun kv => P kv.2) (k, v) rest (pyobj_ind v) (all rest)
            end) dct)
  | PObj s => HObj s
  end.
End pyobj_induction.

Module json.

(** *** String escaping ([json.encoder]) *)

Definition hex_digit (n : N) : N :=
  if (n <? 10)%N then (48 + n)%N else (87 + n)%N.

(** ['\\u{0:04x}'.format(n)] for [n < 0x10000]. *)
Definition u_escape (n : N) : pystr :=
  [backslash; 117%N;
   hex_digit (N.land (N.shiftr n 12) 15);
   hex_digit (N.land (N.shiftr n 8) 15);
   hex_digit (N.land (N.shiftr n 4) 15);
   hex_digit (N.land n 15)].

(** [ESCAPE_DCT]: the two-character escapes, and [\u00XX] for the
    other control characters. *)
Definition ESCAPE_DCT (c : N) : option pystr :=
  if (c =? 92)%N then Some [backslash; backslash]
  else if (c =? 34)%N then Some [backslash; quote]
  else if (c =? 8)%N then Some [backslash; 98%N]
  else if (c =? 12)%N then Some [backslash; 102%N]
  else if (c =? 10)%N then Some [backslash; 110%N]
  else if (c =? 13)%N then Some [backslash; 114%N]
  else if (c =? 9)%N then Some [backslash; 116%N]
  else if (c <? 32)%N then Some (u_escape c)
  else None.

(** [ESCAPE] matches the control characters, the backslash and the
    double quote: every match is a key of [ESCAPE_DCT]; the other
    characters are copied. *)
Definition escape_char (c : N) : pystr :=
  match ESCAPE_DCT c with
  | Some e => e
  | None => [c]
  end.

(** [ESCAPE_ASCII] matches the backslash, the double quote and every
    character outside the range from space to tilde; those without
    an entry in [ESCAPE_DCT] are written [\uXXXX], as a surrogate
    pair above the basic plane. *)
Definition escape_char_ascii (c : N) : pystr :=
  if ((c =? 92) || (c =? 34) || (c <? 32) || (126 <? c))%N then
    match ESCAPE_DCT c with
    | Some e => e
    | None =>
        if (c <? 65536)%N then u_escape c
        else
          let n := (c - 65536)%N in
          let s1 := N.lor 55296 (N.land (N.shiftr n 10) 1023) in
          let s2 := N.lor 56320 (N.land n 1023) in
          u_escape s1 ++ u_escape s2
    end
  else [c].

Definition encode_basestring (s : pystr) : pystr :=
  quote :: List.concat (List.map escape_char s) ++ [quote].

Definition encode_basestring_ascii (s : pystr) : pystr :=
  quote :: List.concat (List.map escape_char_ascii s) ++ [quote].

(** *** The encoder *)

Section encoder.

(** The keyword arguments of [json.dumps] that the gateway sets:
    [ensure_ascii], whether [default=str] is given, and [indent]. *)
Variable ensure_ascii : bool.
Variable default_str : bool.
Variable indent : option nat.

Definition _encoder (s : pystr) : pystr :=
  if ensure_ascii then encode_basestring_ascii s else encode_basestring s.

(** [item_separator] is [', '] unless an indent is given. *)
Definition item_separator : pystr :=
  match indent with
  | Some _ => lit ","
  | None => lit ", "
  end.

Definition key_separator : pystr := lit ": ".

(** ['\n' + _indent * level], nothing without an indent. *)
Definition newline_indent (level : nat) : pystr :=
  match indent with
  | Some n => newline :: repeat space (n * level)
  | None => []
  end.

(** [_iterencode], with the chunks it yields concatenated.  [None]
    is the [TypeError] for a value that is not serializable when
    no [default] is given. *)
Fixpoint _iterencode (o : pyobj) (level : nat) {struct o} : option pystr :=
  match o with
  | PStr s => Some (_encoder s)
  | PNone => Some (lit "null")
  | PBool true => Some (lit "true")
  | PBool false => Some (lit "false")
  | PInt z => Some (int_str z)
  | PFloat r => Some r
  | PList [] => Some (lit "[]")
  | PList lst =>
      let inner := S level in
      match
        (fix elements (l : list pyobj) (first : bool) : option pystr :=
           match l with
           | [] => Some []
           | value :: rest =>
               match _iterencode value inner, elements rest false with
               | Some chunk, Some chunks =>
                   Some ((if first then []
                          else item_separator ++ newline_indent inner)
                         ++ chunk ++ chunks)
               | _, _ => None
               end
           end) lst true
      with
      | Some chunks =>
          Some (lit "[" ++ newline_indent inner ++ chunks
                ++ newline_indent level ++ lit "]")
      | None => None
      end
  | PDict [] => Some (lit "{}")
  | PDict dct =>
      let inner := S level in
      match
        (fix members (l : list (pystr * pyobj)) (first : bool)
           : option pystr :=
           match l with
           | [] => Some []
           | (key, value) :: rest =>
               match _iterencode value inner, members rest false with
               | Some chunk, Some chunks =>
                   Some ((if first then []
                          else item_separator ++ newline_indent inner)
                         ++ _encoder key ++ key_separator
                         ++ chunk ++ chunks)
               | _, _ => None
               end
           end) dct true
      with
      | Some chunks =>
          Some (lit "{" ++ newline_indent inner ++ chunks
                ++ newline_indent level ++ lit "}")
      | None => None
      end
  | PObj str_form =>
      (* o = _default(o), then encoded again: [str(o)] is a string *)
      if default_str then Some (_encoder str_form) else None
  end.

End encoder.

(** [json.dumps(obj, ensure_ascii=..., default=..., indent=...)]. *)
Definition dumps (obj : pyobj) (ensure_ascii default_str : bool)
    (indent : option nat) : option pystr :=
  _iterencode ensure_ascii default_str indent obj 0.

End json.

(** ** Query parameters and the HTTP client *)

(** A value of the parameter dictionary given to the gateway:
    [str | int | None]. *)
Inductive pyval : Type :=
| VNone
| VStr (s : pystr)
| VInt (z : Z).

Global Instance pyval_eq_dec : EqDecision pyval.
Proof. solve_decision. Defined.

(** A [dict] literal of the source whose keys are strings: the items
    are stored from left to right. *)
Definition dict (items : list (pystr * pyval)) : gmap pystr pyval :=
  fold_left (fun d kv => <[kv.1 := kv.2]> d) items ∅.

(** A [str | None] argument as a dictionary value. *)
Definition of_opt (v : option pystr) : pyval :=
  match v with
  | Some s => VStr s
  | None => VNone
  end.

(** What the gateway reads of an [httpx.Response]: [content_json] is
    what [resp.json()] evaluates to, [None] when the body is not a JSON
    document. *)
Record Response : Type := mkResponse {
  status_code : Z;
  headers : list (pystr * pystr);
  text : pystr;
  content_json : option pyobj
}.

(** A GET request as it leaves the client. *)
Record Request : Type := mkRequest {
  req_base_url : pystr;
  req_path : pystr;
  req_headers : list (pystr * pystr);
  req_params : gmap pystr pyval
}.

(** The outcome of sending a request: a response, whatever its status,
    or no response at all ([httpx.RequestError], with its [str()]). *)
Inductive Answer : Type :=
| Responded (resp : Response)
| Failed (description : pystr).

(** [httpx.AsyncClient]: its configuration, and the upstream it talks
    to. *)
Record AsyncClient : Type := mkAsyncClient {
  base_url : pystr;
  client_headers : list (pystr * pystr);
  timeout : Q;
  upstream : Request -> Answer
}.

(** [Headers.get(key, default)]: names compare without case, several
    values of one name are joined. *)
Definition Headers_get_list (hs : list (pystr * pystr)) (key : pystr)
    : list pystr :=
  List.map snd (List.filter (fun h => bool_decide (lower h.1 = lower key)) hs).

Definition Headers_get (hs : list (pystr * pystr)) (key default : pystr)
    : pystr :=
  match Headers_get_list hs key with
  | [] => default
  | values => join (lit ", ") values
  end.

(** ** Exceptions and effects *)

Inductive exn : Type :=
| RuntimeError (msg : pystr)
| HTTPStatusError (response : Response)
| RequestError (description : pystr)
| JSONDecodeError
| TypeError.

Inductive result (A : Type) : Type :=
| Returns (a : A)
| Raises (e : exn).
Arguments Returns {A} a.
Arguments Raises {A} e.

(** A computation may raise, and it appends the requests it issues to
    the log of the requests sent so far. *)
Definition py (A : Type) : Type := list Request -> result A * list Request.

Global Instance py_ret : MRet py := fun A a sent => (Returns a, sent).

Global Instance py_bind : MBind py := fun A B k m sent =>
  match m sent with
  | (Returns a, sent') => k a sent'
  | (Raises e, sent') => (Raises e, sent')
  end.

Definition raise {A : Type} (e : exn) : py A := fun sent => (Raises e, sent).

(** [try: body except ...]: [handler] gives the clause that matches the
    exception, if one does; what a clause raises is not caught. *)
Definition try_except {A : Type} (body : py A) (handler : exn -> option (py A))
    : py A :=
  fun sent =>
    match body sent with
    | (Returns a, sent') => (Returns a, sent')
    | (Raises e, sent') =>
        match handler e with
        | Some clause => clause sent'
        | None => (Raises e, sent')
        end
    end.

(** [await client.get(path, params=params)]. *)
Definition AsyncClient_get (client : AsyncClient) (path : pystr)
    (params : gmap pystr pyval) : py Response :=
  fun sent =>
    let req := mkRequest (base_url client) path (client_headers client) params in
    match upstream client req with
    | Responded resp => (Returns resp, sent ++ [req])
    | Failed description => (Raises (RequestError description), sent ++ [req])
    end.

(** [resp.raise_for_status()]: only a 2xx status passes. *)
Definition is_success (status : Z) : bool := (200 <=? status) && (status <=? 299).

Definition raise_for_status (resp : Response) : py Response :=
  if is_success (status_code resp) then mret resp
  else raise (HTTPStatusError resp).

(** [resp.json()]. *)
Definition Response_json (resp : Response) : py pyobj :=
  match content_json resp with
  | Some document => mret document
  | None => raise JSONDecodeError
  end.

(** [json.dumps] as a computation. *)
Definition json_dumps (obj : pyobj) (ensure_ascii default_str : bool)
    (indent : option nat) : py pystr :=
  match json.dumps obj ensure_ascii default_str indent with
  | Some s => mret s
  | None => raise TypeError
  end.

(** ** Config and lifespan *)

Definition BASE_URL : pystr := lit "https://rest.budgetbakers.com/wallet/v1/api".

Record AppContext : Type := mkAppContext { http : AsyncClient }.


(** The MCP [Context] of a tool call. *)
Record RequestContext : Type := mkRequestContext { lifespan_context : AppContext }.
Record Context : Type := mkContext { request_context : RequestContext }.

(** ** HTTP helper *)

(** The test of the loop: [v] is not [None] and differs from the empty
    string.  An [int] differs from every string. *)
Definition is_forwarded (v : pyval) : bool :=
  negb (bool_decide (v = VNone)) && negb (bool_decide (v = VStr [])).

(** The dictionary [clean] that [_fetch] builds from [params]. *)
Definition clean_params (params : option (gmap pystr pyval))
    : gmap pystr pyval :=
  let clean := {[ lit "agentHints" := VStr (lit "true") ]} in
  match params with
  | Some items =>
      if bool_decide (items = ∅) then clean
      else
        map_fold (fun k v clean => if is_forwarded v then <[k := v]> clean else clean)
          clean items
  | None => clean
  end.

(** Make an authenticated GET request and return formatted JSON. *)
Definition _fetch (ctx : Context) (path : pystr)
    (params : option (gmap pystr pyval)) : py pystr :=
  let client := http (lifespan_context (request_context ctx)) in
  let clean := clean_params params in
  try_except
    (resp ← AsyncClient_get client path clean;
     _ ← raise_for_status resp;
     document ← Response_json resp;
     json_dumps document false true None)
    (fun e =>
       match e with
       | HTTPStatusError response =>
           Some
             (let body := text response in
              if bool_decide (status_code response = 429) then
                let retry_after :=
                  Headers_get (headers response) (lit "Retry-After") (lit "unknown") in
                json_dumps
                  (PDict [(lit "error", PStr (lit "Rate limit exceeded (429)"));
                          (lit "retry_after", PStr retry_after);
                          (lit "hint",
                           PStr (lit "Use get_api_usage() to check remaining quota."))])
                  true false (Some 2%nat)
              else
                json_dumps
                  (PDict [(lit "error", PStr (lit "HTTP " ++ int_str (status_code response)));
                          (lit "detail", PStr body)])
                  true false (Some 2%nat))
       | RequestError description =>
           Some
             (json_dumps
                (PDict [(lit "error", PStr (lit "Request failed: " ++ description))])
                true false (Some 2%nat))
       | _ => None
       end).

(** ** Tools *)

(** An argument that has a default value may be left out of the call:
    [None] stands for the omitted argument.  For a [str | None]
    argument the default is [None] itself. *)

Definition get_accounts (ctx : Context) (limit offset : option Z)
    (account_id name account_type currency_code bank_account_number
       created_at updated_at : option pystr) : py pystr :=
  let limit := default 30 limit in
  let offset := default 0 offset in
  _fetch ctx (lit "/accounts") (Some (dict [
    (lit "limit", VInt limit);
    (lit "offset", VInt offset);
    (lit "id", of_opt account_id);
    (lit "name", of_opt name);
    (lit "accountType", of_opt account_type);
    (lit "currencyCode", of_opt currency_code);
    (lit "bankAccountNumber", of_opt bank_account_number);
    (lit "createdAt", of_opt created_at);
    (lit "updatedAt", of_opt updated_at)])).

Definition get_records (ctx : Context) (account_id : pystr)
    (record_date : option pystr) (limit offset : option Z)
    (category_id label_id note payee payer amount record_type sort_by
       created_at updated_at : option pystr) : py pystr :=
  let limit := default 30 limit in
  let offset := default 0 offset in
  _fetch ctx (lit "/records") (Some (dict [
    (lit "accountId", VStr account_id);
    (lit "recordDate", of_opt record_date);
    (lit "limit", VInt limit);
    (lit "offset", VInt offset);
    (lit "categoryId", of_opt category_id);
    (lit "labelId", of_opt label_id);
    (lit "note", of_opt note);
    (lit "payee", of_opt payee);
    (lit "payer", of_opt payer);
    (lit "amount", of_opt amount);
    (lit "recordType", of_opt record_type);
    (lit "sortBy", of_opt sort_by);
    (lit "createdAt", of_opt created_at);
    (lit "updatedAt", of_opt updated_at)])).

Definition get_records_by_id (ctx : Context) (record_ids : pystr) : py pystr :=
  _fetch ctx (lit "/records/by-id") (Some (dict [(lit "id", VStr record_ids)])).

Definition get_categories (ctx : Context) (limit offset : option Z)
    (category_id name created_at updated_at : option pystr) : py pystr :=
  let limit := default 50 limit in
  let offset := default 0 offset in
  _fetch ctx (lit "/categories") (Some (dict [
    (lit "limit", VInt limit);
    (lit "offset", VInt offset);
    (lit "id", of_opt category_id);
    (lit "name", of_opt name);
    (lit "createdAt", of_opt created_at);
    (lit "updatedAt", of_opt updated_at)])).

Definition get_budgets (ctx : Context) (limit offset : option Z)
    (budget_id name currency_code created_at updated_at : option pystr)
    : py pystr :=
  let limit := default 30 limit in
  let offset := default 0 offset in
  _fetch ctx (lit "/budgets") (Some (dict [
    (lit "limit", VInt limit);
    (lit "offset", VInt offset);
    (lit "id", of_opt budget_id);
    (lit "name", of_opt name);
    (lit "currencyCode", of_opt currency_code);
    (lit "createdAt", of_opt created_at);
    (lit "updatedAt", of_opt updated_at)])).

Definition get_goals (ctx : Context) (limit offset : option Z)
    (goal_id name note created_at updated_at : option pystr) : py pystr :=
  let limit := default 30 limit in
  let offset := default 0 offset in
  _fetch ctx (lit "/goals") (Some (dict [
    (lit "limit", VInt limit);
    (lit "offset", VInt offset);
    (lit "id", of_opt goal_id);
    (lit "name", of_opt name);
    (lit "note", of_opt note);
    (lit "createdAt", of_opt created_at);
    (lit "updatedAt", of_opt updated_at)])).

Definition get_labels (ctx : Context) (limit offset : option Z)
    (label_id name created_at updated_at : option pystr) : py pystr :=
  let limit := default 50 limit in
  let offset := default 0 offset in
  _fetch ctx (lit "/labels") (Some (dict [
    (lit "limit", VInt limit);
    (lit "offset", VInt offset);
    (lit "id", of_opt label_id);
    (lit "name", of_opt name);
    (lit "createdAt", of_opt created_at);
    (lit "updatedAt", of_opt updated_at)])).

Definition get_standing_orders (ctx : Context) (limit offset : option Z)
    (standing_order_id name currency_code created_at updated_at : option pystr)
    : py pystr :=
  let limit := default 30 limit in
  let offset := default 0 offset in
  _fetch ctx (lit "/standing-orders") (Some (dict [
    (lit "limit", VInt limit);
    (lit "offset", VInt offset);
    (lit "id", of_opt standing_order_id);
    (lit "name", of_opt name);
    (lit "currencyCode", of_opt currency_code);
    (lit "createdAt", of_opt created_at);
    (lit "updatedAt", of_opt updated_at)])).

Definition get_record_rules (ctx : Context) (limit offset : option Z)
    (rule_id name created_at updated_at : option pystr) : py pystr :=
  let limit := default 30 limit in
  let offset := default 0 offset in
  _fetch ctx (lit "/record-rules") (Some (dict [
    (lit "limit", VInt limit);
    (lit "offset", VInt offset);
    (lit "id", of_opt rule_id);
    (lit "name", of_opt name);
    (lit "createdAt", of_opt created_at);
    (lit "updatedAt", of_opt updated_at)])).

Definition get_api_usage (ctx : Context) (period : option pystr) : py pystr :=
  let period := default (lit "30days") period in
  _fetch ctx (lit "/api-usage/stats") (Some (dict [(lit "period", VStr period)])).

(** ** Vocabulary of the properties *)

(** The request that [_fetch] puts on the wire, and what the upstream
    of the context answers to a request. *)
Definition outgoing (ctx : Context) (path : pystr)
    (params : option (gmap pystr pyval)) : Request :=
  let client := http (lifespan_context (request_context ctx)) in
  mkRequest (base_url client) path (client_headers client) (clean_params params).

Definition answer (ctx : Context) (req : Request) : Answer :=
  upstream (http (lifespan_context (request_context ctx))) req.

(** The mandatory parameter. *)
Definition hint : gmap pystr pyval := {[ lit "agentHints" := VStr (lit "true") ]}.

(** A call issues exactly one request, and that request carries the
    query parameter [key] with value [v]. *)
Definition sends (call : py pystr) (key : pystr) (v : pyval) : Prop :=
  forall sent, exists req,
    (call sent).2 = sent ++ [req] /\ req_params req !! key = Some v.

(** The three error payloads, as the text [json.dumps(..., indent=2)]
    lays them out. *)
Definition quoted (s : pystr) : pystr := [quote] ++ s ++ [quote].

Definition rate_limit_text (retry_after : pystr) : pystr :=
  lit "{" ++ [newline]
  ++ lit "  " ++ quoted (lit "error") ++ lit ": "
  ++ quoted (lit "Rate limit exceeded (429)") ++ lit "," ++ [newline]
  ++ lit "  " ++ quoted (lit "retry_after") ++ lit ": "
  ++ json.encode_basestring_ascii retry_after ++ lit "," ++ [newline]
  ++ lit "  " ++ quoted (lit "hint") ++ lit ": "
  ++ quoted (lit "Use get_api_usage() to check remaining quota.") ++ [newline]
  ++ lit "}".

Definition http_error_text (status : Z) (body : pystr) : pystr :=
  lit "{" ++ [newline]
  ++ lit "  " ++ quoted (lit "error") ++ lit ": "
  ++ json.encode_basestring_ascii (lit "HTTP " ++ int_str status)
  ++ lit "," ++ [newline]
  ++ lit "  " ++ quoted (lit "detail") ++ lit ": "
  ++ json.encode_basestring_ascii body ++ [newline]
  ++ lit "}".

Definition request_failed_text (description : pystr) : pystr :=
  lit "{" ++ [newline]
  ++ lit "  " ++ quoted (lit "error") ++ lit ": "
  ++ json.encode_basestring_ascii (lit "Request failed: " ++ description)
  ++ [newline]
  ++ lit "}".

(** A call fails when it raises, or when the string it returns is one
    of the error payloads: they all open with the [error] member. *)
Definition is_error_payload (s : pystr) : bool :=
  let opening := lit "{" ++ [newline] ++ lit "  " ++ quoted (lit "error") ++ lit ": " in
  bool_decide (take (length opening) s = opening).





(** The two loops of [_iterencode], over the elements of a list and
    over the members of a dictionary, as functions of their own. *)
Definition encode_elements (enc : pyobj -> option pystr) (separator : pystr)
    : list pyobj -> bool -> option pystr :=
  fix elements l first :=
    match l with
    | [] => Some []
    | value :: rest =>
        match enc value, elements rest false with
        | Some chunk, Some chunks =>
            Some ((if first then [] else separator) ++ chunk ++ chunks)
        | _, _ => None
        end
    end.

Definition encode_members (enc : pyobj -> option pystr) (key_enc : pystr -> pystr)
    (separator : pystr) : list (pystr * pyobj) -> bool -> option pystr :=
  fix members l first :=
    match l with
    | [] => Some []
    | (key, value) :: rest =>
        match enc value, members rest false with
        | Some chunk, Some chunks =>
            Some ((if first then [] else separator)
                  ++ key_enc key ++ lit ": " ++ chunk ++ chunks)
        | _, _ => None
        end
    end.

(** What reaches the upstream of a filter argument: its value when it
    is given and not empty, nothing otherwise. *)
Definition filter_value (arg : option pystr) : option pyval :=
  match arg with
  | Some x => if bool_decide (x = []) then None else Some (VStr x)
  | None => None
  end.

(** A call issues exactly one request, and that request satisfies
    [P]. *)
Definition request_of (call : py pystr) (P : Request -> Prop) : Prop :=
  forall sent, exists req, (call sent).2 = sent ++ [req] /\ P req.

(** The character of a decimal digit. *)
Definition digit (d : Z) : N := Z.to_N (48 + d).

(** Contexts for the examples: a session opened with the token [tok]
    on a given upstream. *)
Definition session (network : Request -> Answer) : Context :=
  mkContext (mkRequestContext (mkAppContext
    (mkAsyncClient BASE_URL [(lit "Authorization", lit "Bearer tok")] 30%Q network))).

(** * Properties *)

(** ** The parameter filter *)

Lemma is_forwarded_spec v : is_forwarded v = true <-> v <> VNone /\ v <> VStr [].
Proof.
  unfold is_forwarded.
  rewrite andb_true_iff, !negb_true_iff, !bool_decide_eq_false.
  reflexivity.
Qed.

Lemma is_forwarded_int z : is_forwarded (VInt z) = true.
Proof. reflexivity. Qed.

Lemma clean_params_fold (items : gmap pystr pyval) :
  clean_params (Some items) =
  map_fold (fun k v clean => if is_forwarded v then <[k := v]> clean else clean)
    hint items.
Proof.
  unfold clean_params. case_bool_decide as Hempty; [|reflexivity].
  subst. by rewrite map_fold_empty.
Qed.

(** The loop computes the kept entries laid over the mandatory
    parameter. *)
Lemma clean_params_union (items : gmap pystr pyval) :
  clean_params (Some items) =
  filter (fun kv => is_forwarded kv.2 = true) items ∪ hint.
Proof.
  rewrite clean_params_fold.
  apply (map_fold_weak_ind
           (fun r m => r = filter (fun kv => is_forwarded kv.2 = true) m ∪ hint)).
  - by rewrite map_filter_empty, (left_id_L ∅ (∪)).
  - intros k v m r Hk ->.
    destruct (is_forwarded v) eqn:Hv.
    + rewrite map_filter_insert_True by done. by rewrite insert_union_l.
    + rewrite map_filter_insert_not'.
      * done.
      * simpl. congruence.
      * intros y Hy. congruence.
Qed.

Lemma clean_params_kept (items : gmap pystr pyval) k v :
  items !! k = Some v -> is_forwarded v = true ->
  clean_params (Some items) !! k = Some v.
Proof.
  intros Hk Hv. rewrite clean_params_union.
  apply lookup_union_Some_l, map_lookup_filter_Some. done.
Qed.

Lemma clean_params_dropped (items : gmap pystr pyval) k v :
  items !! k = Some v -> is_forwarded v = false ->
  clean_params (Some items) !! k = hint !! k.
Proof.
  intros Hk Hv. rewrite clean_params_union.
  rewrite lookup_union_r; [done|].
  apply map_lookup_filter_None. right. intros v' Hk'. simpl. congruence.
Qed.

Lemma clean_params_absent (items : gmap pystr pyval) k :
  items !! k = None -> clean_params (Some items) !! k = hint !! k.
Proof.
  intros Hk. rewrite clean_params_union.
  rewrite lookup_union_r; [done|].
  apply map_lookup_filter_None. by left.
Qed.

Lemma hint_lookup k :
  hint !! k = if decide (k = lit "agentHints") then Some (VStr (lit "true")) else None.
Proof.
  unfold hint. case_decide as Hk.
  - subst. apply lookup_singleton_eq.
  - apply lookup_singleton_ne. congruence.
Qed.

(** No value of the outgoing dictionary is [None] or the empty string. *)
Lemma clean_params_values params k v :
  clean_params params !! k = Some v -> is_forwarded v = true.
Proof.
  destruct params as [items|]; cycle 1.
  { unfold clean_params. fold hint. rewrite hint_lookup.
    case_decide; [|done]. by intros [= <-]. }
  rewrite clean_params_union. intros [Hl|[_ Hr]]%lookup_union_Some_raw.
  - apply map_lookup_filter_Some in Hl as [_ Hv]. exact Hv.
  - rewrite hint_lookup in Hr. case_decide; [|done]. by injection Hr as <-.
Qed.

(** ** The runs of the gateway *)

Lemma is_success_spec status : is_success status = true <-> 200 <= status <= 299.
Proof. unfold is_success. rewrite andb_true_iff, !Z.leb_le. reflexivity. Qed.

Lemma dumps_rate_limit retry_after :
  json.dumps
    (PDict [(lit "error", PStr (lit "Rate limit exceeded (429)"));
            (lit "retry_after", PStr retry_after);
            (lit "hint", PStr (lit "Use get_api_usage() to check remaining quota."))])
    true false (Some 2%nat)
  = Some (rate_limit_text retry_after).
Proof.
  unfold rate_limit_text, json.dumps, quoted. cbn. f_equal.
  repeat (rewrite <- ?app_assoc; cbn; f_equal).
Qed.

Lemma dumps_http_error status body :
  json.dumps
    (PDict [(lit "error", PStr (lit "HTTP " ++ int_str status));
            (lit "detail", PStr body)])
    true false (Some 2%nat)
  = Some (http_error_text status body).
Proof.
  unfold http_error_text, json.dumps, quoted. cbn -[int_str]. f_equal.
  repeat (rewrite <- ?app_assoc; cbn -[int_str]; f_equal).
Qed.

Lemma dumps_request_failed description :
  json.dumps
    (PDict [(lit "error", PStr (lit "Request failed: " ++ description))])
    true false (Some 2%nat)
  = Some (request_failed_text description).
Proof.
  unfold request_failed_text, json.dumps, quoted. cbn. f_equal.
  repeat (rewrite <- ?app_assoc; cbn; f_equal).
Qed.

Ltac run_fetch Hanswer :=
  unfold answer, outgoing in Hanswer;
  unfold _fetch, try_except, mbind, py_bind, AsyncClient_get;
  cbv beta zeta; rewrite Hanswer;
  unfold raise_for_status, Response_json, json_dumps.

Ltac step := unfold raise, mret, py_ret; cbv beta iota zeta.

Lemma _fetch_rate_limited ctx path params sent resp :
  answer ctx (outgoing ctx path params) = Responded resp ->
  status_code resp = 429 ->
  _fetch ctx path params sent =
  (Returns (rate_limit_text
              (Headers_get (headers resp) (lit "Retry-After") (lit "unknown"))),
   sent ++ [outgoing ctx path params]).
Proof.
  intros Hanswer Hstatus. run_fetch Hanswer.
  rewrite Hstatus. change (is_success 429) with false. step.
  rewrite Hstatus, bool_decide_eq_true_2 by done.
  rewrite dumps_rate_limit. by step.
Qed.

Lemma _fetch_http_error ctx path params sent resp :
  answer ctx (outgoing ctx path params) = Responded resp ->
  is_success (status_code resp) = false ->
  status_code resp <> 429 ->
  _fetch ctx path params sent =
  (Returns (http_error_text (status_code resp) (text resp)),
   sent ++ [outgoing ctx path params]).
Proof.
  intros Hanswer Hstatus Hnot429. run_fetch Hanswer.
  rewrite Hstatus. step.
  rewrite bool_decide_eq_false_2 by done.
  rewrite dumps_http_error. by step.
Qed.

Lemma _fetch_request_failed ctx path params sent description :
  answer ctx (outgoing ctx path params) = Failed description ->
  _fetch ctx path params sent =
  (Returns (request_failed_text description), sent ++ [outgoing ctx path params]).
Proof.
  intros Hanswer. run_fetch Hanswer. step.
  rewrite dumps_request_failed. by step.
Qed.

Lemma _fetch_success ctx path params sent resp document out :
  answer ctx (outgoing ctx path params) = Responded resp ->
  is_success (status_code resp) = true ->
  content_json resp = Some document ->
  json.dumps document false true None = Some out ->
  _fetch ctx path params sent = (Returns out, sent ++ [outgoing ctx path params]).
Proof.
  intros Hanswer Hstatus Hjson Hout. run_fetch Hanswer.
  rewrite Hstatus, Hjson. step. rewrite Hout. by step.
Qed.

(** A 2xx answer whose body is not a JSON document: the exception of
    [resp.json()] matches neither [except] clause. *)
Lemma _fetch_undecodable ctx path params sent resp :
  answer ctx (outgoing ctx path params) = Responded resp ->
  is_success (status_code resp) = true ->
  content_json resp = None ->
  _fetch ctx path params sent =
  (Raises JSONDecodeError, sent ++ [outgoing ctx path params]).
Proof.
  intros Hanswer Hstatus Hjson. run_fetch Hanswer.
  rewrite Hstatus, Hjson. by step.
Qed.

(** ** The encoder *)

Lemma iterencode_list ea ds ind v l lvl :
  json._iterencode ea ds ind (PList (v :: l)) lvl =
  match encode_elements (fun o => json._iterencode ea ds ind o (S lvl))
          (json.item_separator ind ++ json.newline_indent ind (S lvl)) (v :: l) true with
  | Some chunks =>
      Some (lit "[" ++ json.newline_indent ind (S lvl) ++ chunks
            ++ json.newline_indent ind lvl ++ lit "]")
  | None => None
  end.
Proof. reflexivity. Qed.

Lemma iterencode_dict ea ds ind kv l lvl :
  json._iterencode ea ds ind (PDict (kv :: l)) lvl =
  match encode_members (fun o => json._iterencode ea ds ind o (S lvl)) (json._encoder ea)
          (json.item_separator ind ++ json.newline_indent ind (S lvl)) (kv :: l) true with
  | Some chunks =>
      Some (lit "{" ++ json.newline_indent ind (S lvl) ++ chunks
            ++ json.newline_indent ind lvl ++ lit "}")
  | None => None
  end.
Proof. reflexivity. Qed.

Lemma encode_elements_total enc sep l first :
  Forall (fun o => is_Some (enc o)) l -> is_Some (encode_elements enc sep l first).
Proof.
  intros Hall. revert first. induction Hall as [|o l [c Hc] _ IH]; intros first; [by eexists|].
  cbn. rewrite Hc. destruct (IH false) as [cs Hcs]. rewrite Hcs. by eexists.
Qed.

Lemma encode_members_total enc kenc sep l first :
  Forall (fun kv => is_Some (enc kv.2)) l -> is_Some (encode_members enc kenc sep l first).
Proof.
  intros Hall. revert first. induction Hall as [|[k o] l [c Hc] _ IH]; intros first; [by eexists|].
  cbn in *. rewrite Hc. destruct (IH false) as [cs Hcs]. rewrite Hcs. by eexists.
Qed.

Lemma iterencode_default_total ea ind o :
  forall lvl, is_Some (json._iterencode ea true ind o lvl).
Proof.
  induction o as [| | | | |lst IH|dct IH|] using pyobj_ind; intros lvl;
    try (by eexists); try (destruct b; by eexists).
  - destruct lst as [|v l]; [by eexists|]. rewrite iterencode_list.
    destruct (encode_elements_total (fun o => json._iterencode ea true ind o (S lvl))
                (json.item_separator ind ++ json.newline_indent ind (S lvl)) (v :: l) true) as [cs Hcs].
    { eapply Forall_impl; [exact IH|]. intros o Ho. apply Ho. }
    rewrite Hcs. by eexists.
  - destruct dct as [|kv l]; [by eexists|]. rewrite iterencode_dict.
    destruct (encode_members_total (fun o => json._iterencode ea true ind o (S lvl)) (json._encoder ea)
                (json.item_separator ind ++ json.newline_indent ind (S lvl)) (kv :: l) true) as [cs Hcs].
    { eapply Forall_impl; [exact IH|]. intros o Ho. apply Ho. }
    rewrite Hcs. by eexists.
Qed.





Lemma hex_digit_ascii n : (json.hex_digit (N.land n 15) < 128)%N.
Proof.
  assert (N.land n 15 < 16)%N as Hlt.
  { change 15%N with (N.ones 4). rewrite N.land_ones. by apply N.mod_lt. }
  unfold json.hex_digit. destruct (N.ltb_spec (N.land n 15) 10); lia.
Qed.

Lemma u_escape_ascii n : Forall (fun c => (c < 128)%N) (json.u_escape n).
Proof.
  unfold json.u_escape, backslash.
  repeat (constructor; [first [apply hex_digit_ascii | lia]|]). constructor.
Qed.













(** With [ensure_ascii] left at its default, as for the error payloads,
    a string is written with ASCII characters only. *)
Lemma ESCAPE_DCT_ascii c e :
  json.ESCAPE_DCT c = Some e -> Forall (fun c => (c < 128)%N) e.
Proof.
  unfold json.ESCAPE_DCT.
  repeat match goal with
         | |- context [(c =? ?k)%N] =>
             destruct (N.eqb_spec c k) as [->|?];
             [intros [= <-]; repeat constructor|]
         end.
  destruct (N.ltb_spec c 32); [|done].
  intros [= <-]. apply u_escape_ascii.
Qed.

Lemma escape_char_ascii_ascii c :
  Forall (fun c => (c < 128)%N) (json.escape_char_ascii c).
Proof.
  unfold json.escape_char_ascii.
  destruct (_ || _)%bool eqn:Hescaped.
  - destruct (json.ESCAPE_DCT c) as [e|] eqn:He; [by eapply ESCAPE_DCT_ascii|].
    destruct (c <? 65536)%N; [apply u_escape_ascii|].
    apply Forall_app; split; apply u_escape_ascii.
  - apply orb_false_iff in Hescaped as [_ Htilde].
    apply N.ltb_ge in Htilde. constructor; [lia|constructor].
Qed.

Lemma encode_basestring_ascii_ascii s :
  Forall (fun c => (c < 128)%N) (json.encode_basestring_ascii s).
Proof.
  unfold json.encode_basestring_ascii. constructor; [unfold quote; lia|].
  apply Forall_app; split; [|repeat constructor].
  induction s as [|c s IH]; [constructor|].
  cbn [List.map List.concat]. apply Forall_app; split; [apply escape_char_ascii_ascii|done].
Qed.

Example ensure_ascii_escapes :
  json.dumps (PStr (lit "Caf" ++ [233%N])) true false None
  = Some (quoted (lit "Caf" ++ [backslash] ++ lit "u00e9"))
  /\ json.dumps (PStr (lit "Caf" ++ [233%N])) false true None
     = Some (quoted (lit "Caf" ++ [233%N])).
Proof. split; reflexivity. Qed.

(** ** What every run of the gateway has in common *)

(** Whatever the answer, exactly one request is issued, and it carries
    the filtered parameters. *)
Lemma _fetch_sent ctx path params sent :
  (_fetch ctx path params sent).2 = sent ++ [outgoing ctx path params].
Proof.
  destruct (answer ctx (outgoing ctx path params)) as [resp|description] eqn:Hanswer.
  - destruct (is_success (status_code resp)) eqn:Hstatus.
    + destruct (content_json resp) as [document|] eqn:Hjson.
      * destruct (iterencode_default_total false None document 0) as [out Hout].
        by erewrite _fetch_success.
      * by erewrite _fetch_undecodable.
    + destruct (decide (status_code resp = 429)) as [H429|H429].
      * by erewrite _fetch_rate_limited.
      * by erewrite _fetch_http_error.
  - by erewrite _fetch_request_failed.
Qed.

(** The gateway returns a string unless the upstream answers 2xx with a
    body that is not a JSON document. *)
Lemma _fetch_returns ctx path params sent :
  (forall resp,
     answer ctx (outgoing ctx path params) = Responded resp ->
     is_success (status_code resp) = true -> is_Some (content_json resp)) ->
  exists out, (_fetch ctx path params sent).1 = Returns out.
Proof.
  intros Hdecodable.
  destruct (answer ctx (outgoing ctx path params)) as [resp|description] eqn:Hanswer.
  - destruct (is_success (status_code resp)) eqn:Hstatus.
    + destruct (Hdecodable resp eq_refl Hstatus) as [document Hjson].
      destruct (iterencode_default_total false None document 0) as [out Hout].
      exists out. by erewrite _fetch_success.
    + destruct (decide (status_code resp = 429)) as [H429|H429].
      * eexists. by erewrite _fetch_rate_limited.
      * eexists. by erewrite _fetch_http_error.
  - eexists. by erewrite _fetch_request_failed.
Qed.

Lemma _fetch_sends (ctx : Context) (path : pystr) (items : gmap pystr pyval) k v :
  items !! k = Some v -> is_forwarded v = true ->
  sends (_fetch ctx path (Some items)) k v.
Proof.
  intros Hk Hv sent. exists (outgoing ctx path (Some items)). split.
  - apply _fetch_sent.
  - by apply clean_params_kept.
Qed.

Lemma rate_limit_text_is_error r : is_error_payload (rate_limit_text r) = true.
Proof. reflexivity. Qed.

Lemma http_error_text_is_error status body :
  is_error_payload (http_error_text status body) = true.
Proof. reflexivity. Qed.

Lemma request_failed_text_is_error description :
  is_error_payload (request_failed_text description) = true.
Proof. reflexivity. Qed.

(** ** The claims *)

(** C1.  The gateway does not always return a string: when the upstream
    answers with a 2xx status and a body that is not a JSON document
    (here 200 and an HTML page), [resp.json()] raises an exception that
    neither [except] clause catches, and [_fetch] raises it to its
    caller after the request has been sent. *)
Theorem fetch_raises_on_undecodable_success :
  _fetch
    (session (fun _ => Responded (mkResponse 200 [] (lit "<html>") None)))
    (lit "/accounts") None []
  = (Raises JSONDecodeError,
     [mkRequest BASE_URL (lit "/accounts")
        [(lit "Authorization", lit "Bearer tok")] hint]).
Proof.
  rewrite (_fetch_undecodable _ _ _ _ (mkResponse 200 [] (lit "<html>") None))
    by reflexivity.
  reflexivity.
Qed.

(** C2.  For every parameter mapping the request that leaves the
    gateway carries the mandatory [agentHints] parameter overlaid with
    exactly the supplied entries whose value is neither [None] nor the
    empty string, each under its own name: a [None] or empty value is
    never forwarded, a non-empty one always is, and [agentHints] is
    present on every request (with the value [true] unless the mapping
    itself supplies a non-empty value under that name). *)
Theorem outgoing_parameters (ctx : Context) (path : pystr)
    (params : option (gmap pystr pyval)) (sent : list Request) :
  let supplied := default ∅ params in
  let out := clean_params params in
  (_fetch ctx path params sent).2 = sent ++ [outgoing ctx path params]
  /\ req_params (outgoing ctx path params) = out
  /\ out = filter (fun kv => kv.2 <> VNone /\ kv.2 <> VStr []) supplied ∪ hint
  /\ (forall k v, supplied !! k = Some v -> v = VNone \/ v = VStr [] ->
        out !! k <> Some v /\ (k <> lit "agentHints" -> out !! k = None))
  /\ (forall k v, supplied !! k = Some v -> v <> VNone -> v <> VStr [] ->
        out !! k = Some v)
  /\ is_Some (out !! lit "agentHints")
  /\ ((forall v, supplied !! lit "agentHints" = Some v -> v = VNone \/ v = VStr []) ->
        out !! lit "agentHints" = Some (VStr (lit "true"))).
Proof.
  intros supplied out.
  assert (out = clean_params (Some supplied)) as Hout.
  { subst out supplied. destruct params as [items|]; [done|].
    unfold clean_params. by rewrite bool_decide_eq_true_2. }
  assert (forall v, is_forwarded v = false <-> v = VNone \/ v = VStr []) as Hdrop.
  { intros v. destruct (is_forwarded v) eqn:Hv.
    - apply is_forwarded_spec in Hv as [Hv1 Hv2].
      split; [done|]. by intros [?|?].
    - split; [intros _|done].
      destruct (decide (v = VNone)); [by left|].
      destruct (decide (v = VStr [])); [by right|].
      assert (is_forwarded v = true) by by apply is_forwarded_spec. congruence. }
  split; [apply _fetch_sent|]. split; [done|]. split.
  { rewrite Hout, clean_params_union. f_equal.
    apply map_filter_ext. intros k v _. simpl. apply is_forwarded_spec. }
  split.
  { intros k v Hk Hv. apply Hdrop in Hv.
    rewrite Hout, (clean_params_dropped _ _ _ Hk Hv), hint_lookup. split.
    - case_decide; [|done]. intros [= <-]. done.
    - intros Hne. by rewrite decide_False. }
  split.
  { intros k v Hk Hv1 Hv2. rewrite Hout. apply clean_params_kept; [done|].
    by apply is_forwarded_spec. }
  split.
  { rewrite Hout. destruct (supplied !! lit "agentHints") as [v|] eqn:Hk.
    - destruct (is_forwarded v) eqn:Hv.
      + rewrite (clean_params_kept _ _ _ Hk Hv). by eexists.
      + rewrite (clean_params_dropped _ _ _ Hk Hv). by eexists.
    - rewrite (clean_params_absent _ _ Hk). by eexists. }
  intros Hk. rewrite Hout.
  destruct (supplied !! lit "agentHints") as [v|] eqn:Hv.
  - apply clean_params_dropped with v; [done|]. apply Hdrop. by apply Hk.
  - by rewrite clean_params_absent.
Qed.

Lemma outgoing_parameters_witness :
  let params :=
    Some (dict [(lit "limit", VInt 0); (lit "name", VNone);
                (lit "note", VStr []); (lit "payee", VStr (lit "eq.Shop"))]) in
  clean_params params !! lit "name" = None
  /\ clean_params params !! lit "note" = None
  /\ clean_params params !! lit "payee" = Some (VStr (lit "eq.Shop"))
  /\ clean_params params !! lit "agentHints" = Some (VStr (lit "true")).
Proof.
  intros params.
  destruct (outgoing_parameters (session (fun _ => Failed [])) (lit "/records") params [])
    as (_ & _ & _ & Hdropped & Hkept & _ & Hhint).
  split; [|split; [|split]].
  - apply (Hdropped (lit "name") VNone); [reflexivity|by left|discriminate].
  - apply (Hdropped (lit "note") (VStr [])); [reflexivity|by right|discriminate].
  - apply (Hkept (lit "payee")); [reflexivity|discriminate|discriminate].
  - apply Hhint. intros v Hv. vm_compute in Hv. discriminate.
Defined.



(** C4.  When the upstream answers with a status outside 2xx other
    than 429, the gateway returns the pretty-printed object whose only
    members are [error], the text HTTP followed by the status code,
    and [detail], the body of the response. *)
Theorem http_error_payload ctx path params sent resp :
  answer ctx (outgoing ctx path params) = Responded resp ->
  ~ 200 <= status_code resp <= 299 ->
  status_code resp <> 429 ->
  (_fetch ctx path params sent).1
  = Returns (http_error_text (status_code resp) (text resp))
  /\ json.dumps
       (PDict [(lit "error", PStr (lit "HTTP " ++ int_str (status_code resp)));
               (lit "detail", PStr (text resp))])
       true false (Some 2%nat)
     = Some (http_error_text (status_code resp) (text resp)).
Proof.
  intros Hanswer Hstatus H429. rewrite <- is_success_spec in Hstatus.
  apply not_true_is_false in Hstatus. split.
  - by erewrite _fetch_http_error.
  - apply dumps_http_error.
Qed.

Lemma http_error_payload_witness :
  (_fetch
     (session (fun _ => Responded (mkResponse 404 [] (lit "not found") None)))
     (lit "/accounts") None []).1
  = Returns
      (lit "{" ++ [newline]
       ++ lit "  " ++ quoted (lit "error") ++ lit ": "
       ++ quoted (lit "HTTP 404") ++ lit "," ++ [newline]
       ++ lit "  " ++ quoted (lit "detail") ++ lit ": "
       ++ quoted (lit "not found") ++ [newline]
       ++ lit "}").
Proof.
  apply (http_error_payload
           (session (fun _ => Responded (mkResponse 404 [] (lit "not found") None)))
           (lit "/accounts") None [] (mkResponse 404 [] (lit "not found") None)).
  - reflexivity.
  - cbn. lia.
  - discriminate.
Defined.

(** C5.  When no response is received, the gateway returns the
    pretty-printed object whose single member is [error], the text
    Request failed followed by the description of the failure. *)
Theorem request_failed_payload ctx path params sent description :
  answer ctx (outgoing ctx path params) = Failed description ->
  (_fetch ctx path params sent).1 = Returns (request_failed_text description)
  /\ json.dumps
       (PDict [(lit "error", PStr (lit "Request failed: " ++ description))])
       true false (Some 2%nat)
     = Some (request_failed_text description).
Proof.
  intros Hanswer. split.
  - by erewrite _fetch_request_failed.
  - apply dumps_request_failed.
Qed.

Lemma request_failed_payload_witness :
  (_fetch (session (fun _ => Failed (lit "All connection attempts failed")))
     (lit "/accounts") None []).1
  = Returns
      (lit "{" ++ [newline]
       ++ lit "  " ++ quoted (lit "error") ++ lit ": "
       ++ quoted (lit "Request failed: All connection attempts failed") ++ [newline]
       ++ lit "}").
Proof.
  apply (request_failed_payload
           (session (fun _ => Failed (lit "All connection attempts failed")))
           (lit "/accounts") None [] (lit "All connection attempts failed")).
  reflexivity.
Defined.








Lemma sends_request (call : py pystr) (req : Request) k v :
  (forall sent, (call sent).2 = sent ++ [req]) ->
  sends call k v -> req_params req !! k = Some v.
Proof.
  intros Hreq Hsends. destruct (Hsends []) as (req' & Hsent & Hk).
  rewrite Hreq in Hsent. by injection Hsent as ->.
Qed.

(** C9, as stated, fails for the empty string: the identifier list is
    not forwarded as the [id] parameter, it is left out of the
    request. *)
Lemma empty_record_ids_not_forwarded :
  ~ sends (get_records_by_id (session (fun _ => Failed [])) []) (lit "id") (VStr []).
Proof.
  intros Hsends.
  apply (sends_request _ (outgoing (session (fun _ => Failed [])) (lit "/records/by-id")
                            (Some (dict [(lit "id", VStr [])])))) in Hsends.
  - vm_compute in Hsends. discriminate.
  - intros sent. apply _fetch_sent.
Qed.

(** C9, amended.  Neither tool validates the documented limits: each
    call issues its one request whatever the argument.  A non-empty
    [record_ids] string, however many identifiers it lists, is
    forwarded unchanged as the [id] parameter, and a non-empty
    [record_date], whatever span it covers, is forwarded unchanged as
    [recordDate]; an empty string is left out, as for every
    parameter. *)
Theorem limits_not_validated :
  (forall ctx record_ids sent,
     exists req,
       (get_records_by_id ctx record_ids sent).2 = sent ++ [req]
       /\ req_path req = lit "/records/by-id"
       /\ (record_ids <> [] ->
           req_params req = <[lit "id" := VStr record_ids]> hint)
       /\ (record_ids = [] -> req_params req = hint))
  /\ (forall ctx account_id record_date limit offset a b c d e f g h i j sent,
        exists req,
          (get_records ctx account_id record_date limit offset a b c d e f g h i j
             sent).2 = sent ++ [req]
          /\ req_path req = lit "/records"
          /\ (forall range, record_date = Some range -> range <> [] ->
              req_params req !! lit "recordDate" = Some (VStr range))
          /\ (record_date = None \/ record_date = Some [] ->
              req_params req !! lit "recordDate" = None)).
Proof.
  split.
  - intros ctx record_ids sent. eexists. split; [apply _fetch_sent|].
    split; [reflexivity|]. cbn [req_params outgoing]. split.
    + intros Hne. rewrite clean_params_union.
      change (dict [(lit "id", VStr record_ids)])
        with (<[lit "id" := VStr record_ids]> (∅ : gmap pystr pyval)).
      rewrite map_filter_insert_True.
      * by rewrite map_filter_empty, <- insert_union_l, (left_id_L ∅ (∪)).
      * simpl. apply is_forwarded_spec. split; [done|]. by intros [= ->].
    + intros ->. reflexivity.
  - intros ctx account_id record_date limit offset a b c d e f g h i j sent.
    eexists. split; [apply _fetch_sent|]. split; [reflexivity|].
    cbn [req_params outgoing]. split.
    + intros range -> Hne. apply clean_params_kept; [reflexivity|].
      apply is_forwarded_spec. split; [done|]. by intros [= ->].
    + intros Hdate.
      erewrite clean_params_dropped; [reflexivity| |].
      * reflexivity.
      * by destruct Hdate as [-> | ->].
Qed.

Lemma limits_not_validated_witness :
  (exists req,
     (get_records_by_id (session (fun _ => Failed [])) (lit "a,b") []).2 = [req]
     /\ req_params req = <[lit "id" := VStr (lit "a,b")]> hint)
  /\ (exists req,
        (get_records (session (fun _ => Failed [])) (lit "acc")
           (Some (lit "gte.2020-01-01,lte.2025-01-01")) None None
           None None None None None None None None None None []).2 = [req]
        /\ req_params req !! lit "recordDate"
           = Some (VStr (lit "gte.2020-01-01,lte.2025-01-01"))).
Proof.
  destruct limits_not_validated as [Hids Hdate]. split.
  - destruct (Hids (session (fun _ => Failed [])) (lit "a,b") [])
      as (req & Hsent & _ & Hparams & _).
    exists req. split; [exact Hsent|]. apply Hparams. discriminate.
  - destruct (Hdate (session (fun _ => Failed [])) (lit "acc")
                (Some (lit "gte.2020-01-01,lte.2025-01-01")) None None
                None None None None None None None None None None [])
      as (req & Hsent & _ & Hparams & _).
    exists req. split; [exact Hsent|]. apply (Hparams _ eq_refl). discriminate.
Defined.

Ltac tool_sends := intros; apply _fetch_sends; reflexivity.

(** C10.  The filter drops a supplied value exactly when it is [None]
    or the empty string; every other value, the integer 0 included, is
    forwarded.  So every tool that pages sends its [limit] and its
    [offset], whatever their values, and with the arguments left out
    it sends the default limit and [offset=0]. *)
Theorem zero_is_forwarded :
  (forall (items : gmap pystr pyval) k v, items !! k = Some v ->
     (clean_params (Some items) !! k = Some v <-> v <> VNone /\ v <> VStr [])
     /\ (k <> lit "agentHints" ->
         (clean_params (Some items) !! k = None <-> v = VNone \/ v = VStr [])))
  /\ (forall (items : gmap pystr pyval) k,
        items !! k = Some (VInt 0) ->
        clean_params (Some items) !! k = Some (VInt 0))
  /\ (forall ctx limit offset a b c d e f g,
        let call := get_accounts ctx limit offset a b c d e f g in
        sends call (lit "limit") (VInt (default 30 limit))
        /\ sends call (lit "offset") (VInt (default 0 offset)))
  /\ (forall ctx account_id record_date limit offset a b c d e f g h i j,
        let call :=
          get_records ctx account_id record_date limit offset a b c d e f g h i j in
        sends call (lit "limit") (VInt (default 30 limit))
        /\ sends call (lit "offset") (VInt (default 0 offset)))
  /\ (forall ctx limit offset a b c d,
        let call := get_categories ctx limit offset a b c d in
        sends call (lit "limit") (VInt (default 50 limit))
        /\ sends call (lit "offset") (VInt (default 0 offset)))
  /\ (forall ctx limit offset a b c d e,
        let call := get_budgets ctx limit offset a b c d e in
        sends call (lit "limit") (VInt (default 30 limit))
        /\ sends call (lit "offset") (VInt (default 0 offset)))
  /\ (forall ctx limit offset a b c d e,
        let call := get_goals ctx limit offset a b c d e in
        sends call (lit "limit") (VInt (default 30 limit))
        /\ sends call (lit "offset") (VInt (default 0 offset)))
  /\ (forall ctx limit offset a b c d,
        let call := get_labels ctx limit offset a b c d in
        sends call (lit "limit") (VInt (default 50 limit))
        /\ sends call (lit "offset") (VInt (default 0 offset)))
  /\ (forall ctx limit offset a b c d e,
        let call := get_standing_orders ctx limit offset a b c d e in
        sends call (lit "limit") (VInt (default 30 limit))
        /\ sends call (lit "offset") (VInt (default 0 offset)))
  /\ (forall ctx limit offset a b c d,
        let call := get_record_rules ctx limit offset a b c d in
        sends call (lit "limit") (VInt (default 30 limit))
        /\ sends call (lit "offset") (VInt (default 0 offset))).
Proof.
  split.
  { intros items k v Hk. split.
    - rewrite <- is_forwarded_spec. split.
      + apply clean_params_values.
      + by apply clean_params_kept.
    - intros Hne. destruct (is_forwarded v) eqn:Hv.
      + rewrite (clean_params_kept _ _ _ Hk Hv).
        apply is_forwarded_spec in Hv as [Hv1 Hv2].
        split; [done|]. by intros [?|?].
      + rewrite (clean_params_dropped _ _ _ Hk Hv), hint_lookup, decide_False by done.
        split; [intros _|done].
        destruct (decide (v = VNone)); [by left|].
        destruct (decide (v = VStr [])); [by right|].
        assert (is_forwarded v = true) by by apply is_forwarded_spec. congruence. }
  split.
  { intros items k Hk. by apply clean_params_kept. }
  repeat split; tool_sends.
Qed.

Lemma zero_is_forwarded_witness :
  clean_params (Some (dict [(lit "offset", VInt 0); (lit "name", VStr [])]))
    !! lit "offset" = Some (VInt 0)
  /\ clean_params (Some (dict [(lit "offset", VInt 0); (lit "name", VStr [])]))
       !! lit "name" = None.
Proof.
  destruct zero_is_forwarded as (Hexact & Hzero & _).
  split.
  - apply Hzero. reflexivity.
  - apply (Hexact _ (lit "name") (VStr [])); [reflexivity|discriminate|by right].
Defined.

(** * Further properties *)

(** ** The gateway *)



Lemma ascii_forallb s :
  forallb (fun c => (c <? 128)%N) s = true -> Forall (fun c => (c < 128)%N) s.
Proof.
  induction s as [|c s IH]; [constructor|]. cbn [forallb].
  intros [Hc Hs]%andb_true_iff. constructor; [by apply N.ltb_lt|by apply IH].
Qed.

Ltac ascii_text :=
  repeat (apply Forall_app; split);
  first [apply encode_basestring_ascii_ascii
        |apply ascii_forallb; reflexivity].

Lemma rate_limit_text_ascii r : Forall (fun c => (c < 128)%N) (rate_limit_text r).
Proof. unfold rate_limit_text, quoted. ascii_text. Qed.

Lemma http_error_text_ascii status body :
  Forall (fun c => (c < 128)%N) (http_error_text status body).
Proof. unfold http_error_text, quoted. ascii_text. Qed.

Lemma request_failed_text_ascii description :
  Forall (fun c => (c < 128)%N) (request_failed_text description).
Proof. unfold request_failed_text, quoted. ascii_text. Qed.

(** X2.  Every error payload is plain ASCII: when the upstream answers
    outside 2xx or does not answer, the string that [_fetch] returns
    has no code point above 127, whatever the body, the header or the
    failure description contain (they are written with escape
    sequences). *)
Theorem error_payload_is_ascii ctx path params sent :
  (forall resp, answer ctx (outgoing ctx path params) = Responded resp ->
     ~ 200 <= status_code resp <= 299) ->
  exists out,
    (_fetch ctx path params sent).1 = Returns out
    /\ Forall (fun c => (c < 128)%N) out.
Proof.
  intros Hfailure.
  destruct (answer ctx (outgoing ctx path params)) as [resp|description] eqn:Hanswer.
  - specialize (Hfailure resp eq_refl). rewrite <- is_success_spec in Hfailure.
    apply not_true_is_false in Hfailure.
    destruct (decide (status_code resp = 429)) as [H429|H429].
    + eexists. split; [by erewrite _fetch_rate_limited|apply rate_limit_text_ascii].
    + eexists. split; [by erewrite _fetch_http_error|apply http_error_text_ascii].
  - eexists. split; [by erewrite _fetch_request_failed|apply request_failed_text_ascii].
Qed.

Lemma error_payload_is_ascii_witness :
  exists out,
    (_fetch
       (session (fun _ => Responded (mkResponse 404 [] (lit "Caf" ++ [233%N]) None)))
       (lit "/goals") None []).1 = Returns out
    /\ Forall (fun c => (c < 128)%N) out.
Proof.
  apply (error_payload_is_ascii
           (session (fun _ => Responded (mkResponse 404 [] (lit "Caf" ++ [233%N]) None)))
           (lit "/goals") None []).
  intros resp Hanswer. injection Hanswer as <-. cbn. lia.
Defined.

(** X3.  The rate-limit payload does not carry the body of the 429
    response: two 429 answers with the same [Retry-After] values give
    the same string, whatever their bodies and other headers are. *)
Theorem rate_limit_payload_ignores_body ctx path params sent resp
    ctx' path' params' sent' resp' :
  answer ctx (outgoing ctx path params) = Responded resp ->
  answer ctx' (outgoing ctx' path' params') = Responded resp' ->
  status_code resp = 429 -> status_code resp' = 429 ->
  Headers_get_list (headers resp) (lit "Retry-After")
  = Headers_get_list (headers resp') (lit "Retry-After") ->
  (_fetch ctx path params sent).1 = (_fetch ctx' path' params' sent').1.
Proof.
  intros Hanswer Hanswer' Hstatus Hstatus' Hretry.
  erewrite !_fetch_rate_limited by done. cbn [fst].
  unfold Headers_get. by rewrite Hretry.
Qed.

Lemma rate_limit_payload_ignores_body_witness :
  (_fetch
     (session (fun _ => Responded
                 (mkResponse 429 [(lit "Retry-After", lit "60")] (lit "slow down") None)))
     (lit "/accounts") None []).1
  = (_fetch
       (session (fun _ => Responded
                   (mkResponse 429
                      [(lit "content-type", lit "text/html"); (lit "retry-after", lit "60")]
                      (lit "<html>") None)))
       (lit "/records") None []).1.
Proof.
  apply (rate_limit_payload_ignores_body _ _ _ _
           (mkResponse 429 [(lit "Retry-After", lit "60")] (lit "slow down") None)
           _ _ _ _
           (mkResponse 429
              [(lit "content-type", lit "text/html"); (lit "retry-after", lit "60")]
              (lit "<html>") None));
    reflexivity.
Defined.

Lemma dict_keys (items : list (pystr * pyval)) :
  forall (d : gmap pystr pyval) k,
  is_Some (fold_left (fun d kv => <[kv.1 := kv.2]> d) items d !! k) ->
  k ∈ List.map fst items \/ is_Some (d !! k).
Proof.
  induction items as [|[k' v'] items IH]; intros d k Hk; [by right|].
  cbn [fold_left List.map fst] in *. destruct (IH _ _ Hk) as [Hin|Hd].
  - left. apply elem_of_cons. by right.
  - cbn in Hd. destruct (decide (k' = k)) as [->|Hne].
    + left. apply elem_of_cons. by left.
    + rewrite lookup_insert_ne in Hd by done. by right.
Qed.

Lemma clean_params_keys (items : list (pystr * pyval)) k :
  is_Some (clean_params (Some (dict items)) !! k) ->
  k ∈ lit "agentHints" :: List.map fst items.
Proof.
  rewrite clean_params_union. intros [v Hv].
  apply lookup_union_Some_raw in Hv as [Hl|[_ Hr]].
  - apply map_lookup_filter_Some in Hl as [Hl _].
    apply elem_of_cons. right.
    destruct (dict_keys items ∅ k) as [Hin|Hempty]; [by eexists|done|].
    rewrite lookup_empty in Hempty. by destruct Hempty.
  - rewrite hint_lookup in Hr. case_decide; [|done]. subst. apply elem_of_cons. by left.
Qed.

Lemma clean_params_filter_value (items : gmap pystr pyval) k arg :
  items !! k = Some (of_opt arg) -> k <> lit "agentHints" ->
  clean_params (Some items) !! k = filter_value arg.
Proof.
  intros Hk Hne. destruct arg as [x|]; cbn [of_opt filter_value] in *.
  - case_bool_decide as Hx.
    + subst x. rewrite (clean_params_dropped _ _ _ Hk) by reflexivity.
      by rewrite hint_lookup, decide_False.
    + apply clean_params_kept; [done|].
      apply is_forwarded_spec. split; [done|]. by intros [= ->].
  - rewrite (clean_params_dropped _ _ _ Hk) by reflexivity.
    by rewrite hint_lookup, decide_False.
Qed.

(** X4.  The dictionary that [_fetch] sends never holds [None] or the
    empty string as a value, never holds a name that is neither
    [agentHints] nor a name of the supplied mapping, and has at most
    one entry more than the mapping; when every supplied value is
    [None] or empty (or nothing is supplied) it is exactly
    [agentHints=true]. *)
Theorem outgoing_dictionary_invariants (params : option (gmap pystr pyval)) :
  let supplied := default ∅ params in
  let out := clean_params params in
  (forall k, out !! k <> Some VNone /\ out !! k <> Some (VStr []))
  /\ (forall k, is_Some (out !! k) ->
        k = lit "agentHints" \/ is_Some (supplied !! k))
  /\ (size out <= S (size supplied))%nat
  /\ ((forall k v, supplied !! k = Some v -> v = VNone \/ v = VStr []) ->
      out = hint).
Proof.
  intros supplied out.
  assert (out = filter (fun kv => is_forwarded kv.2 = true) supplied ∪ hint) as Hout.
  { subst out supplied. destruct params as [items|]; [apply clean_params_union|].
    cbn [default]. by rewrite map_filter_empty, (left_id_L ∅ (∪)). }
  split.
  { intros k. split; intros Hk; by apply clean_params_values in Hk. }
  split.
  { intros k [v Hv]. rewrite Hout in Hv.
    apply lookup_union_Some_raw in Hv as [Hl|[_ Hr]].
    - right. apply map_lookup_filter_Some in Hl as [Hl _]. by eexists.
    - left. rewrite hint_lookup in Hr. by case_decide. }
  split.
  { rewrite Hout.
    rewrite <- !(size_dom (D := gset pystr)), dom_union_L.
    rewrite size_union_alt, Nat.add_comm.
    apply (Nat.add_le_mono _ 1).
    - etrans; [apply subseteq_size, subseteq_difference_l; reflexivity|].
      unfold hint. by rewrite dom_singleton_L, size_singleton.
    - apply subseteq_size, dom_filter_subseteq. }
  intros Hdropped. rewrite Hout.
  rewrite map_empty_filter_2; [by rewrite (left_id_L ∅ (∪))|].
  apply map_Forall_lookup. intros k v Hk. simpl.
  destruct (Hdropped k v Hk) as [-> | ->]; by intros [=].
Qed.

Lemma outgoing_dictionary_invariants_witness :
  clean_params (Some (dict [(lit "name", VNone); (lit "note", VStr [])])) = hint
  /\ forall k,
       is_Some (clean_params (Some (dict [(lit "id", VStr (lit "7"))])) !! k) ->
       k = lit "agentHints" \/ is_Some (dict [(lit "id", VStr (lit "7"))] !! k).
Proof.
  split.
  - apply (outgoing_dictionary_invariants
             (Some (dict [(lit "name", VNone); (lit "note", VStr [])]))).
    intros k v Hk.
    destruct (dict_keys [(lit "name", VNone); (lit "note", VStr [])] ∅ k)
      as [Hin|[? Hempty]]; [by exists v| |by rewrite lookup_empty in Hempty].
    cbn [List.map fst] in Hin.
    apply elem_of_cons in Hin as [->|Hin].
    { left. vm_compute in Hk. by injection Hk as <-. }
    apply elem_of_cons in Hin as [->|Hin].
    { right. vm_compute in Hk. by injection Hk as <-. }
    by apply elem_of_nil in Hin.
  - apply (outgoing_dictionary_invariants (Some (dict [(lit "id", VStr (lit "7"))]))).
Defined.

(** The decimal numeral of a three-digit number. *)
Lemma int_str_three_digits status :
  100 <= status <= 999 ->
  int_str status
  = [digit (status / 100); digit (status / 10 mod 10); digit (status mod 10)].
Proof.
  intros Hrange.
  assert (forallb
            (fun n =>
               let s := 100 + Z.of_nat n in
               bool_decide
                 (int_str s = [digit (s / 100); digit (s / 10 mod 10); digit (s mod 10)]))
            (seq 0 900) = true) as Hall by (vm_compute; reflexivity).
  rewrite forallb_forall in Hall.
  specialize (Hall (Z.to_nat (status - 100))).
  cbv zeta in Hall. rewrite Z2Nat.id in Hall by lia.
  replace (100 + (status - 100)) with status in Hall by lia.
  apply bool_decide_eq_true in Hall; [exact Hall|].
  apply in_seq. lia.
Qed.

(** X5.  For every status code of three digits that is no success and
    not 429, in particular for every HTTP status from 100 to 599, the
    [error] member of the payload reads HTTP, a space and the three
    decimal digits of the code, without any escape sequence. *)
Theorem http_error_shows_status ctx path params sent resp :
  answer ctx (outgoing ctx path params) = Responded resp ->
  100 <= status_code resp <= 999 ->
  ~ 200 <= status_code resp <= 299 ->
  status_code resp <> 429 ->
  let status := status_code resp in
  (_fetch ctx path params sent).1
  = Returns
      (lit "{" ++ [newline]
       ++ lit "  " ++ quoted (lit "error") ++ lit ": "
       ++ quoted (lit "HTTP "
                  ++ [digit (status / 100); digit (status / 10 mod 10);
                      digit (status mod 10)])
       ++ lit "," ++ [newline]
       ++ lit "  " ++ quoted (lit "detail") ++ lit ": "
       ++ json.encode_basestring_ascii (text resp) ++ [newline]
       ++ lit "}").
Proof.
  intros Hanswer Hrange Hstatus H429 status.
  rewrite <- is_success_spec in Hstatus. apply not_true_is_false in Hstatus.
  erewrite _fetch_http_error by done. cbn [fst]. f_equal.
  unfold http_error_text. fold status. rewrite (int_str_three_digits status Hrange).
  assert (forall d, 0 <= d <= 9 ->
            json.escape_char_ascii (digit d) = [digit d]) as Hdigit.
  { intros d Hd. unfold json.escape_char_ascii, digit.
    rewrite Z2N.inj_add by lia. change (Z.to_N 48) with 48%N.
    assert (Z.to_N d <= 9)%N by (change 9%N with (Z.to_N 9); apply Z2N.inj_le; lia).
    repeat match goal with
           | |- context [(?a =? ?b)%N] => destruct (N.eqb_spec a b); [lia|]
           | |- context [(?a <? ?b)%N] => destruct (N.ltb_spec a b); [lia|]
           end.
    reflexivity. }
  assert (0 <= status / 100 <= 9)
    by (unfold status; Z.div_mod_to_equations; lia).
  assert (0 <= status / 10 mod 10 <= 9) by (Z.div_mod_to_equations; lia).
  assert (0 <= status mod 10 <= 9) by (Z.div_mod_to_equations; lia).
  unfold json.encode_basestring_ascii, quoted.
  rewrite !map_app, !concat_app. cbn [List.map List.concat].
  rewrite !Hdigit by done. cbn. reflexivity.
Qed.

Lemma http_error_shows_status_witness :
  (_fetch
     (session (fun _ => Responded (mkResponse 503 [] (lit "down") None)))
     (lit "/budgets") None []).1
  = Returns
      (lit "{" ++ [newline]
       ++ lit "  " ++ quoted (lit "error") ++ lit ": "
       ++ quoted (lit "HTTP 503") ++ lit "," ++ [newline]
       ++ lit "  " ++ quoted (lit "detail") ++ lit ": "
       ++ quoted (lit "down") ++ [newline]
       ++ lit "}").
Proof.
  apply (http_error_shows_status
           (session (fun _ => Responded (mkResponse 503 [] (lit "down") None)))
           (lit "/budgets") None [] (mkResponse 503 [] (lit "down") None)).
  - reflexivity.
  - cbn. lia.
  - cbn. lia.
  - discriminate.
Defined.

(** ** The requests of the tools *)

Ltac tool_request :=
  intros sent; eexists; split; [apply _fetch_sent|];
  cbn [req_path req_params outgoing];
  repeat match goal with |- _ /\ _ => split end;
  [reflexivity
  |try (apply clean_params_kept; reflexivity);
   try (apply clean_params_filter_value; [reflexivity|discriminate])..
  |let key := fresh "key" in let Hkey := fresh "Hkey" in
   intros key Hkey; apply clean_params_keys in Hkey; exact Hkey].

(** X6.  [get_accounts] issues one GET to [/accounts].  The request
    carries [limit] and [offset]; each filter that is given a non-empty
    value goes out under its upstream name ([account_id] as [id],
    [account_type] as [accountType], and so on), a filter that is
    [None] or empty is left out, and no other parameter name is ever
    sent. *)
Theorem get_accounts_request ctx limit offset account_id name account_type
    currency_code bank_account_number created_at updated_at :
  request_of
    (get_accounts ctx limit offset account_id name account_type
       currency_code bank_account_number created_at updated_at)
    (fun req =>
       req_path req = lit "/accounts"
       /\ req_params req !! lit "limit" = Some (VInt (default 30 limit))
       /\ req_params req !! lit "offset" = Some (VInt (default 0 offset))
       /\ req_params req !! lit "id" = filter_value account_id
       /\ req_params req !! lit "name" = filter_value name
       /\ req_params req !! lit "accountType" = filter_value account_type
       /\ req_params req !! lit "currencyCode" = filter_value currency_code
       /\ req_params req !! lit "bankAccountNumber" = filter_value bank_account_number
       /\ req_params req !! lit "createdAt" = filter_value created_at
       /\ req_params req !! lit "updatedAt" = filter_value updated_at
       /\ forall key, is_Some (req_params req !! key) ->
          key ∈ [lit "agentHints"; lit "limit"; lit "offset"; lit "id"; lit "name";
                 lit "accountType"; lit "currencyCode"; lit "bankAccountNumber";
                 lit "createdAt"; lit "updatedAt"]).
Proof. tool_request. Qed.

(** X7.  [get_records] issues one GET to [/records].  A non-empty
    [account_id] goes out as [accountId] and an empty one is left out;
    the request carries [limit] and [offset]; each filter that is given
    a non-empty value goes out under its upstream name, a filter that
    is [None] or empty is left out, and no other parameter name is ever
    sent. *)
Theorem get_records_request ctx account_id record_date limit offset
    category_id label_id note payee payer amount record_type sort_by
    created_at updated_at :
  request_of
    (get_records ctx account_id record_date limit offset category_id label_id
       note payee payer amount record_type sort_by created_at updated_at)
    (fun req =>
       req_path req = lit "/records"
       /\ req_params req !! lit "accountId" = filter_value (Some account_id)
       /\ req_params req !! lit "recordDate" = filter_value record_date
       /\ req_params req !! lit "limit" = Some (VInt (default 30 limit))
       /\ req_params req !! lit "offset" = Some (VInt (default 0 offset))
       /\ req_params req !! lit "categoryId" = filter_value category_id
       /\ req_params req !! lit "labelId" = filter_value label_id
       /\ req_params req !! lit "note" = filter_value note
       /\ req_params req !! lit "payee" = filter_value payee
       /\ req_params req !! lit "payer" = filter_value payer
       /\ req_params req !! lit "amount" = filter_value amount
       /\ req_params req !! lit "recordType" = filter_value record_type
       /\ req_params req !! lit "sortBy" = filter_value sort_by
       /\ req_params req !! lit "createdAt" = filter_value created_at
       /\ req_params req !! lit "updatedAt" = filter_value updated_at
       /\ forall key, is_Some (req_params req !! key) ->
          key ∈ [lit "agentHints"; lit "accountId"; lit "recordDate"; lit "limit";
                 lit "offset"; lit "categoryId"; lit "labelId"; lit "note";
                 lit "payee"; lit "payer"; lit "amount"; lit "recordType";
                 lit "sortBy"; lit "createdAt"; lit "updatedAt"]).
Proof. tool_request. Qed.

(** X8.  [get_categories] issues one GET to [/categories], with
    [limit] (50 when omitted) and [offset]; [category_id] goes out as
    [id], the other filters under their upstream names, each only when
    it is given and not empty, and no other parameter name is ever
    sent. *)
Theorem get_categories_request ctx limit offset category_id name
    created_at updated_at :
  request_of
    (get_categories ctx limit offset category_id name created_at updated_at)
    (fun req =>
       req_path req = lit "/categories"
       /\ req_params req !! lit "limit" = Some (VInt (default 50 limit))
       /\ req_params req !! lit "offset" = Some (VInt (default 0 offset))
       /\ req_params req !! lit "id" = filter_value category_id
       /\ req_params req !! lit "name" = filter_value name
       /\ req_params req !! lit "createdAt" = filter_value created_at
       /\ req_params req !! lit "updatedAt" = filter_value updated_at
       /\ forall key, is_Some (req_params req !! key) ->
          key ∈ [lit "agentHints"; lit "limit"; lit "offset"; lit "id"; lit "name";
                 lit "createdAt"; lit "updatedAt"]).
Proof. tool_request. Qed.

(** X9.  [get_budgets] issues one GET to [/budgets], with [limit] (30
    when omitted) and [offset]; [budget_id] goes out as [id] and
    [currency_code] as [currencyCode], the other filters under their
    upstream names, each only when it is given and not empty, and no
    other parameter name is ever sent. *)
Theorem get_budgets_request ctx limit offset budget_id name currency_code
    created_at updated_at :
  request_of
    (get_budgets ctx limit offset budget_id name currency_code created_at updated_at)
    (fun req =>
       req_path req = lit "/budgets"
       /\ req_params req !! lit "limit" = Some (VInt (default 30 limit))
       /\ req_params req !! lit "offset" = Some (VInt (default 0 offset))
       /\ req_params req !! lit "id" = filter_value budget_id
       /\ req_params req !! lit "name" = filter_value name
       /\ req_params req !! lit "currencyCode" = filter_value currency_code
       /\ req_params req !! lit "createdAt" = filter_value created_at
       /\ req_params req !! lit "updatedAt" = filter_value updated_at
       /\ forall key, is_Some (req_params req !! key) ->
          key ∈ [lit "agentHints"; lit "limit"; lit "offset"; lit "id"; lit "name";
                 lit "currencyCode"; lit "createdAt"; lit "updatedAt"]).
Proof. tool_request. Qed.

(** X10.  [get_goals] issues one GET to [/goals], with [limit] (30
    when omitted) and [offset]; [goal_id] goes out as [id], the other
    filters under their upstream names, each only when it is given and
    not empty, and no other parameter name is ever sent. *)
Theorem get_goals_request ctx limit offset goal_id name note created_at updated_at :
  request_of
    (get_goals ctx limit offset goal_id name note created_at updated_at)
    (fun req =>
       req_path req = lit "/goals"
       /\ req_params req !! lit "limit" = Some (VInt (default 30 limit))
       /\ req_params req !! lit "offset" = Some (VInt (default 0 offset))
       /\ req_params req !! lit "id" = filter_value goal_id
       /\ req_params req !! lit "name" = filter_value name
       /\ req_params req !! lit "note" = filter_value note
       /\ req_params req !! lit "createdAt" = filter_value created_at
       /\ req_params req !! lit "updatedAt" = filter_value updated_at
       /\ forall key, is_Some (req_params req !! key) ->
          key ∈ [lit "agentHints"; lit "limit"; lit "offset"; lit "id"; lit "name";
                 lit "note"; lit "createdAt"; lit "updatedAt"]).
Proof. tool_request. Qed.

(** X11.  [get_labels] issues one GET to [/labels], with [limit] (50
    when omitted) and [offset]; [label_id] goes out as [id], the other
    filters under their upstream names, each only when it is given and
    not empty, and no other parameter name is ever sent. *)
Theorem get_labels_request ctx limit offset label_id name created_at updated_at :
  request_of
    (get_labels ctx limit offset label_id name created_at updated_at)
    (fun req =>
       req_path req = lit "/labels"
       /\ req_params req !! lit "limit" = Some (VInt (default 50 limit))
       /\ req_params req !! lit "offset" = Some (VInt (default 0 offset))
       /\ req_params req !! lit "id" = filter_value label_id
       /\ req_params req !! lit "name" = filter_value name
       /\ req_params req !! lit "createdAt" = filter_value created_at
       /\ req_params req !! lit "updatedAt" = filter_value updated_at
       /\ forall key, is_Some (req_params req !! key) ->
          key ∈ [lit "agentHints"; lit "limit"; lit "offset"; lit "id"; lit "name";
                 lit "createdAt"; lit "updatedAt"]).
Proof. tool_request. Qed.

(** X12.  [get_standing_orders] issues one GET to [/standing-orders],
    with [limit] (30 when omitted) and [offset]; [standing_order_id]
    goes out as [id] and [currency_code] as [currencyCode], the other
    filters under their upstream names, each only when it is given and
    not empty, and no other parameter name is ever sent. *)
Theorem get_standing_orders_request ctx limit offset standing_order_id name
    currency_code created_at updated_at :
  request_of
    (get_standing_orders ctx limit offset standing_order_id name currency_code
       created_at updated_at)
    (fun req =>
       req_path req = lit "/standing-orders"
       /\ req_params req !! lit "limit" = Some (VInt (default 30 limit))
       /\ req_params req !! lit "offset" = Some (VInt (default 0 offset))
       /\ req_params req !! lit "id" = filter_value standing_order_id
       /\ req_params req !! lit "name" = filter_value name
       /\ req_params req !! lit "currencyCode" = filter_value currency_code
       /\ req_params req !! lit "createdAt" = filter_value created_at
       /\ req_params req !! lit "updatedAt" = filter_value updated_at
       /\ forall key, is_Some (req_params req !! key) ->
          key ∈ [lit "agentHints"; lit "limit"; lit "offset"; lit "id"; lit "name";
                 lit "currencyCode"; lit "createdAt"; lit "updatedAt"]).
Proof. tool_request. Qed.

(** X13.  [get_record_rules] issues one GET to [/record-rules], with
    [limit] (30 when omitted) and [offset]; [rule_id] goes out as
    [id], the other filters under their upstream names, each only when
    it is given and not empty, and no other parameter name is ever
    sent. *)
Theorem get_record_rules_request ctx limit offset rule_id name created_at updated_at :
  request_of
    (get_record_rules ctx limit offset rule_id name created_at updated_at)
    (fun req =>
       req_path req = lit "/record-rules"
       /\ req_params req !! lit "limit" = Some (VInt (default 30 limit))
       /\ req_params req !! lit "offset" = Some (VInt (default 0 offset))
       /\ req_params req !! lit "id" = filter_value rule_id
       /\ req_params req !! lit "name" = filter_value name
       /\ req_params req !! lit "createdAt" = filter_value created_at
       /\ req_params req !! lit "updatedAt" = filter_value updated_at
       /\ forall key, is_Some (req_params req !! key) ->
          key ∈ [lit "agentHints"; lit "limit"; lit "offset"; lit "id"; lit "name";
                 lit "createdAt"; lit "updatedAt"]).
Proof. tool_request. Qed.

(** X14.  [get_api_usage] issues one GET to [/api-usage/stats].  With
    the argument omitted it sends [period=30days]; a non-empty period
    is sent unchanged; an empty period is left out of the request, the
    default is not put in its place.  No other parameter name than
    [agentHints] and [period] is ever sent. *)
Theorem get_api_usage_request ctx period :
  request_of (get_api_usage ctx period)
    (fun req =>
       req_path req = lit "/api-usage/stats"
       /\ req_params req !! lit "period"
          = match period with
            | None => Some (VStr (lit "30days"))
            | Some p => if bool_decide (p = []) then None else Some (VStr p)
            end
       /\ forall key, is_Some (req_params req !! key) ->
          key ∈ [lit "agentHints"; lit "period"]).
Proof.
  intros sent. eexists. split; [apply _fetch_sent|].
  cbn [req_path req_params outgoing]. split; [reflexivity|]. split.
  - destruct period as [p|].
    + apply (clean_params_filter_value _ _ (Some p)); [reflexivity|discriminate].
    + reflexivity.
  - intros key Hkey. apply clean_params_keys in Hkey. exact Hkey.
Qed.
